(** * y+ wall-distance estimation: a shallow embedding of [main.py]

    The program is a pipeline of closed-form flat-plate correlations.  Python
    floats are idealised as the real numbers of the Standard Library: there is
    no rounding, no overflow, no infinity and no NaN.  Everything else of the
    Python semantics the functions rely on is kept: exceptions raised by the
    source and by the [math] module, division by zero, and the fact that a
    negative float raised to a fractional power is a complex number.

    The numbered theorems are stated so that they remain true when each
    real operation is read as the operation on doubles the program
    performs.  Where the rounding of the doubles changes what the layer
    count returns, the inputs are recorded at the end of the file. *)

From Stdlib Require Import Reals Lra Lia ZArith Bool String.

Open Scope R_scope.

(** ** Python values and exceptions *)

(** The exceptions the functions can raise.  [ValueError] carries its message:
    the source raises every validation failure as a [ValueError] and the
    message is what tells them apart. *)
Inductive exn : Type :=
| ValueError (msg : string)
| ZeroDivisionError
| TypeError.

Inductive result (A : Type) : Type :=
| Ok (a : A)
| Raise (e : exn).

Arguments Ok {A} a.
Arguments Raise {A} e.

Definition bind {A B : Type} (c : result A) (k : A -> result B) : result B :=
  match c with
  | Ok a => k a
  | Raise e => Raise e
  end.

Notation "x <- c ;; k" := (bind c (fun x => k))
  (at level 61, c at next level, right associativity).

(** A number produced by [**]: a float or a complex number. *)
Inductive pynum : Type :=
| PyFloat (x : R)
| PyComplex (re im : R).

(** Comparisons of floats, as booleans. *)
Definition float_le (x y : R) : bool := if Rle_dec x y then true else false.
Definition float_lt (x y : R) : bool := if Rlt_dec x y then true else false.
Definition float_ge (x y : R) : bool := if Rge_dec x y then true else false.

(** [x / y] on floats. *)
Definition float_div (x y : R) : result R :=
  if Req_dec_T y 0 then Raise ZeroDivisionError else Ok (x / y).

(** [x ** y] on floats.  A negative base with a fractional exponent gives the
    principal complex value, of modulus [|x| ** y] and argument [pi * y]. *)
Definition float_pow (x y : R) : result pynum :=
  if Req_dec_T y 0 then Ok (PyFloat 1)
  else if Req_dec_T x 0 then
    (if Rlt_dec y 0 then Raise ZeroDivisionError else Ok (PyFloat 0))
  else if Rlt_dec 0 x then Ok (PyFloat (Rpower x y))
  else if Req_dec_T (IZR (Zfloor y)) y then Ok (PyFloat (powerRZ x (Zfloor y)))
  else Ok (PyComplex (Rpower (- x) y * cos (PI * y))
                     (Rpower (- x) y * sin (PI * y))).

(** [a * b] and [a / b] where either side may be complex. *)
Definition py_mul (a b : pynum) : pynum :=
  match a, b with
  | PyFloat x, PyFloat y => PyFloat (x * y)
  | PyFloat x, PyComplex c d => PyComplex (x * c) (x * d)
  | PyComplex c d, PyFloat y => PyComplex (c * y) (d * y)
  | PyComplex a1 b1, PyComplex c d => PyComplex (a1 * c - b1 * d) (a1 * d + b1 * c)
  end.

Definition py_truediv (a b : pynum) : result pynum :=
  match a, b with
  | PyFloat x, PyFloat y => r <- float_div x y ;; Ok (PyFloat r)
  | PyComplex c d, PyFloat y =>
      if Req_dec_T y 0 then Raise ZeroDivisionError
      else Ok (PyComplex (c / y) (d / y))
  | PyFloat x, PyComplex c d =>
      if Req_dec_T (c * c + d * d) 0 then Raise ZeroDivisionError
      else Ok (PyComplex (x * c / (c * c + d * d)) (- x * d / (c * c + d * d)))
  | PyComplex a1 b1, PyComplex c d =>
      if Req_dec_T (c * c + d * d) 0 then Raise ZeroDivisionError
      else Ok (PyComplex ((a1 * c + b1 * d) / (c * c + d * d))
                         ((b1 * c - a1 * d) / (c * c + d * d)))
  end.

(** The [math] module: each function takes a real number, and refuses a
    complex one with a [TypeError]. *)
Definition math_domain_error : exn := ValueError "math domain error".

Definition math_sqrt (a : pynum) : result R :=
  match a with
  | PyFloat x => if Rlt_dec x 0 then Raise math_domain_error else Ok (sqrt x)
  | PyComplex _ _ => Raise TypeError
  end.

Definition math_log (x : R) : result R :=
  if Rle_dec x 0 then Raise math_domain_error else Ok (ln x).

Definition math_log10 (x : R) : result R :=
  if Rle_dec x 0 then Raise math_domain_error else Ok (ln x / ln 10).

Definition math_ceil (x : R) : Z := Zceil x.

(** ** Skin-friction correlations *)

Definition Re_must_be_positive : exn := ValueError "Re must be positive".

Definition Re_out_of_range : exn :=
  ValueError "Re out of range for Schlichting correlation (Re < 1e9)".

Definition _cf_schlichting (Re : R) : result pynum :=
  if float_le Re 0 then Raise Re_must_be_positive
  else if float_ge Re 1e9 then Raise Re_out_of_range
  else l <- math_log10 Re ;; float_pow (2 * l - 0.65) (-2.3).

Definition _cf_laminar (Re : R) : result R :=
  if float_le Re 0 then Raise Re_must_be_positive
  else s <- math_sqrt (PyFloat Re) ;; float_div 1.328 s.

(** ** Wall distance for a target y+ *)

(** The dictionary [estimate_wall_distance] returns.  [Cf] and [tau_w] are
    whatever the arithmetic produced, so they are kept as [pynum]. *)
Record WallDistanceResult : Type := {
  Re : R;
  Cf : pynum;
  tau_w : pynum;
  u_tau : R;
  y : R;
  regime : string
}.

Definition invalid_regime : exn :=
  ValueError "regime must be 'laminar', 'turbulent', or 'auto'".

Definition default_regime : string := "auto".
Definition default_transition_Re : R := 5.0e5.

(** The regime the correlation is chosen by (lines 43 to 46 of the source). *)
Definition active_regime (regime : string) (Re transition_Re : R) : string :=
  if String.eqb regime "auto"
  then (if float_lt Re transition_Re then "laminar" else "turbulent")
  else regime.

(** [u_inf ** 2] has an integer exponent, so it is always the float
    [u_inf ^ 2]. *)
Definition estimate_wall_distance
    (u_inf rho mu L y_plus : R) (regime : string) (transition_Re : R)
  : result WallDistanceResult :=
  Re <- float_div (rho * u_inf * L) mu ;;
  if negb (String.eqb regime "laminar" || String.eqb regime "turbulent"
           || String.eqb regime "auto")
  then Raise invalid_regime
  else
    let active_regime := active_regime regime Re transition_Re in
    Cf <- (if String.eqb active_regime "laminar"
           then c <- _cf_laminar Re ;; Ok (PyFloat c)
           else _cf_schlichting Re) ;;
    let tau_w := py_mul (py_mul (py_mul Cf (PyFloat 0.5)) (PyFloat rho))
                        (PyFloat (u_inf ^ 2)) in
    q <- py_truediv tau_w (PyFloat rho) ;;
    u_tau <- math_sqrt q ;;
    y <- float_div (y_plus * mu) (rho * u_tau) ;;
    Ok {| Re := Re; Cf := Cf; tau_w := tau_w; u_tau := u_tau; y := y;
          regime := active_regime |}.

(** ** Boundary-layer thickness *)

Definition Reynolds_must_be_positive : exn :=
  ValueError "Reynolds number must be positive".

(** In the second branch [Re] is positive, so [Re ** (1/7)] is the real power
    (lemma [float_pow_positive_base] below). *)
Definition calculate_boundary_layer_height (length Re : R) : result R :=
  if float_le Re 0 then Raise Reynolds_must_be_positive
  else if float_lt Re 5e5
  then s <- math_sqrt (PyFloat Re) ;; float_div (4.91 * length) s
  else float_div (0.16 * length) (Rpower Re (1 / 7)).

(** ** Number of prism layers *)

Definition invalid_prism_input : exn :=
  ValueError "Invalid input values for prism layer calculation".

Definition calculate_prism_layer_cells
    (total_thickness first_cell_height growth_rate : R) : result Z :=
  if float_le total_thickness 0 || float_le first_cell_height 0
     || float_le growth_rate 1
  then Raise invalid_prism_input
  else
    a <- float_div (total_thickness * (growth_rate - 1)) first_cell_height ;;
    num <- math_log (a + 1) ;;
    den <- math_log growth_rate ;;
    q <- float_div num den ;;
    Ok (math_ceil q).

(** ** The whole pipeline *)

Record MeshingResult : Type := {
  wall_distance : R;
  total_boundary_layer_thickness : R;
  number_of_prism_layers : Z;
  estimation_details : WallDistanceResult
}.

Definition calculate_all_parameters
    (length free_stream_velocity density dynamic_viscosity
     y_plus_target growth_rate : R) : result MeshingResult :=
  res <- estimate_wall_distance free_stream_velocity density dynamic_viscosity
           length y_plus_target "auto" default_transition_Re ;;
  let Re := Re res in
  let first_cell_height := y res in
  total_thickness <- calculate_boundary_layer_height length Re ;;
  total_height <- calculate_prism_layer_cells total_thickness
                    first_cell_height growth_rate ;;
  Ok {| wall_distance := first_cell_height;
        total_boundary_layer_thickness := total_thickness;
        number_of_prism_layers := total_height;
        estimation_details := res |}.

(** ** The geometric series the layer count inverts *)



(** ** Definitions the statements are written with *)

(** The base of the power, [2 * log10 Re - 0.65]. *)
Definition schlichting_base (Re : R) : R := 2 * (ln Re / ln 10) - 0.65.

(** The regime strings [estimate_wall_distance] accepts. *)
Definition valid_regime (regime : string) : Prop :=
  regime = "laminar"%string \/ regime = "turbulent"%string \/
  regime = "auto"%string.

(** The skin-friction stage of [estimate_wall_distance]. *)
Definition skin_friction (active : string) (Re : R) : result pynum :=
  if String.eqb active "laminar"
  then c <- _cf_laminar Re ;; Ok (PyFloat c)
  else _cf_schlichting Re.

(** The argument of the logarithm, [T (r - 1) / h0 + 1]. *)
Definition series_argument (T h0 r : R) : R := T * (r - 1) / h0 + 1.

(** * Properties *)

(** ** The Python primitives *)

Lemma float_le_spec (x y : R) : float_le x y = true <-> x <= y.
Proof.
  unfold float_le; destruct (Rle_dec x y); split; intros; auto; discriminate.
Qed.

Lemma float_lt_spec (x y : R) : float_lt x y = true <-> x < y.
Proof.
  unfold float_lt; destruct (Rlt_dec x y); split; intros; auto; discriminate.
Qed.

Lemma float_ge_spec (x y : R) : float_ge x y = true <-> x >= y.
Proof.
  unfold float_ge; destruct (Rge_dec x y); split; intros; auto; discriminate.
Qed.

Lemma float_le_false (x y : R) : float_le x y = false <-> y < x.
Proof.
  unfold float_le; destruct (Rle_dec x y); split; intros;
    try discriminate; try lra; auto.
Qed.

Lemma float_lt_false (x y : R) : float_lt x y = false <-> y <= x.
Proof.
  unfold float_lt; destruct (Rlt_dec x y); split; intros;
    try discriminate; try lra; auto.
Qed.

Lemma float_ge_false (x y : R) : float_ge x y = false <-> x < y.
Proof.
  unfold float_ge; destruct (Rge_dec x y); split; intros;
    try discriminate; try lra; auto.
Qed.

(** Settle a float comparison whose outcome linear arithmetic decides. *)
Ltac float_true c :=
  let H := fresh in
  assert (H : c = true)
    by (first [ apply float_le_spec | apply float_lt_spec | apply float_ge_spec ];
        lra);
  rewrite H; clear H.

Ltac float_false c :=
  let H := fresh in
  assert (H : c = false)
    by (first [ apply float_le_false | apply float_lt_false | apply float_ge_false ];
        lra);
  rewrite H; clear H.

Lemma float_div_ok (x y : R) : y <> 0 -> float_div x y = Ok (x / y).
Proof.
  intros Hy; unfold float_div; destruct (Req_dec_T y 0); [contradiction | reflexivity].
Qed.

Lemma float_div_by_zero (x : R) : float_div x 0 = Raise ZeroDivisionError.
Proof.
  unfold float_div; destruct (Req_dec_T 0 0) as [_ | H];
    [reflexivity | contradiction H; reflexivity].
Qed.

Lemma math_sqrt_ok (x : R) : 0 <= x -> math_sqrt (PyFloat x) = Ok (sqrt x).
Proof.
  intros Hx; unfold math_sqrt; destruct (Rlt_dec x 0); [lra | reflexivity].
Qed.

Lemma math_log_ok (x : R) : 0 < x -> math_log x = Ok (ln x).
Proof.
  intros Hx; unfold math_log; destruct (Rle_dec x 0); [lra | reflexivity].
Qed.

Lemma math_log10_ok (x : R) : 0 < x -> math_log10 x = Ok (ln x / ln 10).
Proof.
  intros Hx; unfold math_log10; destruct (Rle_dec x 0); [lra | reflexivity].
Qed.

Lemma ln_10_pos : 0 < ln 10.
Proof. rewrite <- ln_1; apply ln_increasing; lra. Qed.

Lemma ln_gt_1_pos (x : R) : 1 < x -> 0 < ln x.
Proof. intros Hx; rewrite <- ln_1; apply ln_increasing; lra. Qed.

(** On a positive base [**] is the real power. *)
Lemma float_pow_positive_base (x y : R) :
  0 < x -> float_pow x y = Ok (PyFloat (Rpower x y)).
Proof.
  intros Hx; unfold float_pow.
  destruct (Req_dec_T y 0) as [-> | Hy].
  - now rewrite Rpower_O.
  - destruct (Req_dec_T x 0); [lra |].
    destruct (Rlt_dec 0 x); [reflexivity | contradiction].
Qed.

(** On a negative base with a fractional exponent [**] is complex. *)
Lemma float_pow_negative_base (x y : R) :
  x < 0 -> IZR (Zfloor y) <> y ->
  float_pow x y = Ok (PyComplex (Rpower (- x) y * cos (PI * y))
                                (Rpower (- x) y * sin (PI * y))).
Proof.
  intros Hx Hy; unfold float_pow.
  destruct (Req_dec_T y 0) as [-> | _].
  - exfalso; apply Hy; now rewrite ZfloorZ.
  - destruct (Req_dec_T x 0); [lra |].
    destruct (Rlt_dec 0 x); [lra |].
    destruct (Req_dec_T (IZR (Zfloor y)) y); [contradiction | reflexivity].
Qed.

Lemma float_pow_zero_base_negative (y : R) :
  y < 0 -> float_pow 0 y = Raise ZeroDivisionError.
Proof.
  intros Hy; unfold float_pow.
  destruct (Req_dec_T y 0); [lra |].
  destruct (Req_dec_T 0 0) as [_ | H]; [| contradiction H; reflexivity].
  destruct (Rlt_dec y 0); [reflexivity | contradiction].
Qed.

Lemma exponent_is_fractional : IZR (Zfloor (-2.3)) <> -2.3.
Proof.
  replace (Zfloor (-2.3)) with (-3)%Z; [lra |].
  symmetry; apply Zfloor_eq; lra.
Qed.

(** ** Laminar skin friction *)

Lemma _cf_laminar_positive_Re (Re : R) :
  0 < Re -> _cf_laminar Re = Ok (1.328 / sqrt Re).
Proof.
  intros HRe; unfold _cf_laminar.
  float_false (float_le Re 0).
  rewrite math_sqrt_ok by lra; cbn.
  apply float_div_ok.
  pose proof (sqrt_lt_R0 Re HRe); lra.
Qed.

Lemma _cf_laminar_nonpositive_Re (Re : R) :
  Re <= 0 -> _cf_laminar Re = Raise Re_must_be_positive.
Proof.
  intros HRe; unfold _cf_laminar.
  now float_true (float_le Re 0).
Qed.

(** C7.  For every [Re > 0] the laminar skin-friction estimator returns
    exactly [1.328 / sqrt Re], and for every [Re <= 0] it fails with the
    invalid-input error "Re must be positive". *)
Theorem cf_laminar_correct (Re : R) :
  (0 < Re -> _cf_laminar Re = Ok (1.328 / sqrt Re)) /\
  (Re <= 0 -> _cf_laminar Re = Raise (ValueError "Re must be positive")).
Proof.
  split.
  - apply _cf_laminar_positive_Re.
  - apply _cf_laminar_nonpositive_Re.
Qed.

Lemma cf_laminar_correct_witness :
  _cf_laminar 4 = Ok (1.328 / sqrt 4) /\
  _cf_laminar (-1) = Raise (ValueError "Re must be positive").
Proof.
  split.
  - apply (proj1 (cf_laminar_correct 4)); lra.
  - apply (proj2 (cf_laminar_correct (-1))); lra.
Defined.

(** ** Turbulent skin friction (Schlichting) *)

Lemma _cf_schlichting_in_range (Re : R) :
  0 < Re < 1e9 -> _cf_schlichting Re = float_pow (schlichting_base Re) (-2.3).
Proof.
  intros [Hlo Hhi]; unfold _cf_schlichting.
  float_false (float_le Re 0).
  float_false (float_ge Re 1e9).
  now rewrite math_log10_ok.
Qed.

Lemma _cf_schlichting_nonpositive_Re (Re : R) :
  Re <= 0 -> _cf_schlichting Re = Raise Re_must_be_positive.
Proof.
  intros HRe; unfold _cf_schlichting.
  now float_true (float_le Re 0).
Qed.

Lemma _cf_schlichting_large_Re (Re : R) :
  1e9 <= Re -> _cf_schlichting Re = Raise Re_out_of_range.
Proof.
  intros HRe; unfold _cf_schlichting.
  float_false (float_le Re 0).
  now float_true (float_ge Re 1e9).
Qed.

Lemma float_pow_never_ValueError (x p : R) (msg : string) :
  float_pow x p <> Raise (ValueError msg).
Proof.
  unfold float_pow.
  repeat match goal with
         | |- context [if ?c then _ else _] => destruct c
         end; discriminate.
Qed.

Lemma _cf_schlichting_positive_base (Re : R) :
  0 < Re < 1e9 -> 0 < schlichting_base Re ->
  _cf_schlichting Re = Ok (PyFloat (Rpower (schlichting_base Re) (-2.3))).
Proof.
  intros HRe Hb.
  rewrite _cf_schlichting_in_range by exact HRe.
  now apply float_pow_positive_base.
Qed.

Lemma schlichting_base_at_1 : schlichting_base 1 = -0.65.
Proof. unfold schlichting_base; rewrite ln_1; lra. Qed.

(** For [Re = 1] the base is [-0.65] and the result is a complex number. *)
Lemma _cf_schlichting_at_1 :
  _cf_schlichting 1 =
  Ok (PyComplex (Rpower 0.65 (-2.3) * cos (PI * -2.3))
                (Rpower 0.65 (-2.3) * sin (PI * -2.3))).
Proof.
  rewrite _cf_schlichting_in_range by lra.
  rewrite schlichting_base_at_1.
  rewrite float_pow_negative_base; [| lra | exact exponent_is_fractional].
  now replace (- -0.65) with 0.65 by lra.
Qed.

(** The imaginary part of that number is not zero: [sin (-2.3 pi)] is
    [- sin (0.3 pi)]. *)
Lemma sin_exponent_angle_negative : sin (PI * -2.3) < 0.
Proof.
  pose proof PI_RGT_0 as Hpi.
  replace (PI * -2.3) with (- (0.3 * PI + 2 * INR 1 * PI)) by (simpl; lra).
  rewrite sin_neg, sin_period.
  assert (0 < sin (0.3 * PI)) by (apply sin_gt_0; lra).
  lra.
Qed.

(** Where the base vanishes, [0.0 ** -2.3] raises [ZeroDivisionError]. *)
Lemma _cf_schlichting_zero_base :
  _cf_schlichting (Rpower 10 0.325) = Raise ZeroDivisionError.
Proof.
  assert (Hb : schlichting_base (Rpower 10 0.325) = 0).
  { unfold schlichting_base; rewrite ln_Rpower.
    pose proof ln_10_pos as H10.
    replace (0.325 * ln 10 / ln 10) with 0.325 by (field; lra). lra. }
  assert (Hlo : 0 < Rpower 10 0.325) by apply exp_pos.
  assert (Hhi : Rpower 10 0.325 < 1e9).
  { replace 1e9 with (Rpower 10 9).
    - apply Rpower_lt; lra.
    - replace 9 with (INR 9) by (simpl; lra).
      rewrite Rpower_pow by lra. lra. }
  rewrite _cf_schlichting_in_range by lra.
  rewrite Hb; apply float_pow_zero_base_negative; lra.
Qed.

(** X1.  The two failures of the turbulent estimator are told apart by the
    message, and each occurs exactly on its range. *)
Theorem cf_schlichting_error_taxonomy (Re : R) :
  (_cf_schlichting Re = Raise Re_must_be_positive <-> Re <= 0) /\
  (_cf_schlichting Re = Raise Re_out_of_range <-> 1e9 <= Re) /\
  Re_must_be_positive <> Re_out_of_range.
Proof.
  assert (Hne : Re_must_be_positive <> Re_out_of_range) by discriminate.
  repeat split; trivial.
  - intros H. destruct (Rle_dec Re 0) as [| Hpos]; [assumption | exfalso].
    destruct (Rle_dec 1e9 Re) as [Hbig | Hsmall].
    + rewrite _cf_schlichting_large_Re in H by exact Hbig.
      apply Hne; congruence.
    + rewrite _cf_schlichting_in_range in H by lra.
      exact (float_pow_never_ValueError _ _ _ H).
  - apply _cf_schlichting_nonpositive_Re.
  - intros H. destruct (Rle_dec 1e9 Re) as [| Hsmall]; [assumption | exfalso].
    destruct (Rle_dec Re 0) as [Hneg | Hpos].
    + rewrite _cf_schlichting_nonpositive_Re in H by exact Hneg.
      apply Hne; congruence.
    + rewrite _cf_schlichting_in_range in H by lra.
      exact (float_pow_never_ValueError _ _ _ H).
  - apply _cf_schlichting_large_Re.
Qed.

(** C2, at the input where the code departs from it.  For [Re = 1], inside
    [0 < Re < 1e9], the turbulent estimator returns a complex number whose
    imaginary part is not zero: it is not a positive skin-friction
    coefficient. *)
Theorem cf_schlichting_complex_at_low_Re :
  0 < 1 < 1e9 /\
  exists re im : R,
    _cf_schlichting 1 = Ok (PyComplex re im) /\ im < 0.
Proof.
  split; [lra |].
  eexists; eexists; split; [exact _cf_schlichting_at_1 |].
  pose proof sin_exponent_angle_negative as Hs.
  assert (Hm : 0 < Rpower 0.65 (-2.3)) by apply exp_pos.
  nra.
Qed.

(** C6, at the input where the code departs from it.  For [Re = 1] the
    turbulent estimator raises nothing and returns no real value of
    [(2 log10 Re - 0.65) ** -2.3]: the base is [-0.65] and the power is a
    complex number. *)
Theorem cf_schlichting_no_real_value_at_low_Re :
  0 < 1 < 1e9 /\
  schlichting_base 1 = -0.65 /\
  (forall e : exn, _cf_schlichting 1 <> Raise e) /\
  (forall c : R, _cf_schlichting 1 <> Ok (PyFloat c)).
Proof.
  split; [lra |]; split; [exact schlichting_base_at_1 |].
  split; intros ?; rewrite _cf_schlichting_at_1; discriminate.
Qed.

(** ** Wall distance *)

Lemma active_regime_auto (Re t : R) :
  active_regime "auto" Re t = if float_lt Re t then "laminar"%string
                              else "turbulent"%string.
Proof. reflexivity. Qed.

Lemma active_regime_valid (regime : string) (Re t : R) :
  valid_regime regime ->
  active_regime regime Re t = "laminar"%string \/
  active_regime regime Re t = "turbulent"%string.
Proof.
  intros [-> | [-> | ->]]; unfold active_regime; simpl; auto.
  destruct (float_lt Re t); auto.
Qed.

(** What the function does once the regime string is accepted and the
    viscosity is not zero. *)
Lemma estimate_wall_distance_stages
    (u_inf rho mu L y_plus : R) (regime : string) (t : R) :
  mu <> 0 -> valid_regime regime ->
  estimate_wall_distance u_inf rho mu L y_plus regime t =
  (Cf <- skin_friction (active_regime regime (rho * u_inf * L / mu) t)
                       (rho * u_inf * L / mu) ;;
   q <- py_truediv (py_mul (py_mul (py_mul Cf (PyFloat 0.5)) (PyFloat rho))
                           (PyFloat (u_inf ^ 2))) (PyFloat rho) ;;
   u_tau <- math_sqrt q ;;
   y <- float_div (y_plus * mu) (rho * u_tau) ;;
   Ok {| Re := rho * u_inf * L / mu; Cf := Cf;
         tau_w := py_mul (py_mul (py_mul Cf (PyFloat 0.5)) (PyFloat rho))
                         (PyFloat (u_inf ^ 2));
         u_tau := u_tau; y := y;
         regime := active_regime regime (rho * u_inf * L / mu) t |}).
Proof.
  intros Hmu Hreg; unfold estimate_wall_distance, skin_friction.
  rewrite float_div_ok by exact Hmu; cbn [bind].
  destruct Hreg as [-> | [-> | ->]]; reflexivity.
Qed.

(** A real, positive skin-friction coefficient gives a positive wall
    distance. *)
Lemma estimate_wall_distance_positive_Cf
    (u_inf rho mu L y_plus : R) (rg : string) (t c : R) :
  0 < u_inf -> 0 < rho -> 0 < mu -> 0 < y_plus -> valid_regime rg ->
  skin_friction (active_regime rg (rho * u_inf * L / mu) t)
                (rho * u_inf * L / mu) = Ok (PyFloat c) ->
  0 < c ->
  exists res : WallDistanceResult,
    estimate_wall_distance u_inf rho mu L y_plus rg t = Ok res /\
    Re res = rho * u_inf * L / mu /\
    Cf res = PyFloat c /\
    regime res = active_regime rg (rho * u_inf * L / mu) t /\
    0 < y res.
Proof.
  intros Hu Hrho Hmu Hy Hreg HCf Hc.
  rewrite estimate_wall_distance_stages by (trivial; lra).
  rewrite HCf; cbn [bind py_mul py_truediv].
  rewrite float_div_ok by lra; cbn [bind].
  set (q := c * 0.5 * rho * u_inf ^ 2 / rho).
  assert (Hq : 0 < q).
  { unfold q; apply Rdiv_lt_0_compat; [| exact Hrho].
    assert (0 < u_inf ^ 2) by (simpl; nra).
    assert (0 < c * 0.5 * rho) by nra.
    nra. }
  rewrite math_sqrt_ok by lra; cbn [bind].
  pose proof (sqrt_lt_R0 q Hq) as Hs.
  assert (Hd : 0 < rho * sqrt q) by nra.
  rewrite float_div_ok by lra; cbn [bind].
  eexists; split; [reflexivity |]; cbn.
  repeat split.
  apply Rdiv_lt_0_compat; nra.
Qed.

Lemma positive_Reynolds (u_inf rho mu L : R) :
  0 < u_inf -> 0 < rho -> 0 < mu -> 0 < L -> 0 < rho * u_inf * L / mu.
Proof.
  intros; apply Rdiv_lt_0_compat; [| assumption].
  assert (0 < rho * u_inf) by nra; nra.
Qed.

(** With physically valid inputs, the estimator succeeds with a positive
    wall distance in the laminar regime, and in the turbulent regime where
    the base of the Schlichting power is positive. *)
Lemma estimate_wall_distance_positive
    (u_inf rho mu L y_plus : R) (rg : string) (t : R) :
  0 < u_inf -> 0 < rho -> 0 < mu -> 0 < L -> 0 < y_plus ->
  valid_regime rg ->
  (active_regime rg (rho * u_inf * L / mu) t = "turbulent"%string ->
   rho * u_inf * L / mu < 1e9 /\
   0 < schlichting_base (rho * u_inf * L / mu)) ->
  exists res : WallDistanceResult,
    estimate_wall_distance u_inf rho mu L y_plus rg t = Ok res /\
    Re res = rho * u_inf * L / mu /\
    regime res = active_regime rg (rho * u_inf * L / mu) t /\
    0 < y res.
Proof.
  intros Hu Hrho Hmu HL Hy Hreg Hturb.
  pose proof (positive_Reynolds u_inf rho mu L Hu Hrho Hmu HL) as HRe.
  destruct (active_regime_valid rg (rho * u_inf * L / mu) t Hreg)
    as [Hlam | Htur].
  - destruct (estimate_wall_distance_positive_Cf u_inf rho mu L y_plus rg t
                (1.328 / sqrt (rho * u_inf * L / mu)))
      as (res & H1 & H2 & _ & H4 & H5); trivial.
    + rewrite Hlam; unfold skin_friction; simpl String.eqb; cbv iota.
      now rewrite _cf_laminar_positive_Re.
    + apply Rdiv_lt_0_compat; [lra | now apply sqrt_lt_R0].
    + now exists res.
  - destruct (Hturb Htur) as [Hhi Hb].
    destruct (estimate_wall_distance_positive_Cf u_inf rho mu L y_plus rg t
                (Rpower (schlichting_base (rho * u_inf * L / mu)) (-2.3)))
      as (res & H1 & H2 & _ & H4 & H5); trivial.
    + rewrite Htur; unfold skin_friction; simpl String.eqb; cbv iota.
      apply _cf_schlichting_positive_base; lra.
    + apply exp_pos.
    + now exists res.
Qed.

(** C4, at the input where the code departs from it.  With
    [U = rho = mu = L = y+ = 1] and the turbulent regime, [Re = 1] lies in
    [0 < Re < 1e9], yet the estimator returns no wall distance: the
    skin-friction coefficient is complex and [math.sqrt] raises
    [TypeError]. *)
Theorem estimate_wall_distance_fails_at_low_turbulent_Re :
  0 < 1 * 1 * 1 / 1 < 1e9 /\
  estimate_wall_distance 1 1 1 1 1 "turbulent" default_transition_Re
  = Raise TypeError.
Proof.
  split; [lra |].
  rewrite estimate_wall_distance_stages; [| lra | right; left; reflexivity].
  replace (1 * 1 * 1 / 1) with 1 by lra.
  unfold active_regime, skin_friction; simpl String.eqb; cbv iota.
  rewrite _cf_schlichting_at_1; cbn [bind py_mul py_truediv].
  destruct (Req_dec_T 1 0); [lra | reflexivity].
Qed.

(** What a successful call records: the Reynolds number it derived and the
    regime it resolved. *)
Lemma estimate_wall_distance_records
    (u_inf rho mu L y_plus : R) (rg : string) (t : R)
    (res : WallDistanceResult) :
  estimate_wall_distance u_inf rho mu L y_plus rg t = Ok res ->
  Re res = rho * u_inf * L / mu /\
  regime res = active_regime rg (Re res) t.
Proof.
  unfold estimate_wall_distance, float_div.
  destruct (Req_dec_T mu 0); [discriminate |]; cbn [bind].
  destruct (negb _); [discriminate |].
  destruct (if String.eqb _ _ then _ else _) as [cf |]; [| discriminate].
  cbn [bind].
  destruct (py_truediv _ _) as [q |]; [| discriminate]; cbn [bind].
  destruct (math_sqrt q) as [ut |]; [| discriminate]; cbn [bind].
  destruct (Req_dec_T (rho * ut) 0); [discriminate |]; cbn [bind].
  intros H; injection H as <-; cbn; split; reflexivity.
Qed.




(** ** Boundary-layer thickness *)

Lemma calculate_boundary_layer_height_nonpositive (length Re0 : R) :
  Re0 <= 0 ->
  calculate_boundary_layer_height length Re0 = Raise Reynolds_must_be_positive.
Proof.
  intros H; unfold calculate_boundary_layer_height.
  now float_true (float_le Re0 0).
Qed.

Lemma calculate_boundary_layer_height_laminar (length Re0 : R) :
  0 < Re0 -> Re0 < 5e5 ->
  calculate_boundary_layer_height length Re0 = Ok (4.91 * length / sqrt Re0).
Proof.
  intros Hpos Hlt; unfold calculate_boundary_layer_height.
  float_false (float_le Re0 0).
  float_true (float_lt Re0 5e5).
  rewrite math_sqrt_ok by lra; cbn [bind].
  apply float_div_ok.
  pose proof (sqrt_lt_R0 Re0 Hpos); lra.
Qed.

Lemma calculate_boundary_layer_height_turbulent (length Re0 : R) :
  5e5 <= Re0 ->
  calculate_boundary_layer_height length Re0
  = Ok (0.16 * length / Rpower Re0 (1 / 7)).
Proof.
  intros Hge; unfold calculate_boundary_layer_height.
  float_false (float_le Re0 0).
  float_false (float_lt Re0 5e5).
  apply float_div_ok.
  pose proof (exp_pos (1 / 7 * ln Re0)); unfold Rpower; lra.
Qed.

(** A run of [estimate_wall_distance] with the caller's threshold at 1e6 and
    [Re = 6e5]: the laminar regime is resolved. *)
Lemma estimate_wall_distance_threshold_1e6 :
  exists res : WallDistanceResult,
    estimate_wall_distance 6e5 1 1 1 1 "auto" 1e6 = Ok res /\
    Re res = 6e5 /\ regime res = "laminar"%string.
Proof.
  assert (Hlam : active_regime "auto" (1 * 6e5 * 1 / 1) 1e6 = "laminar"%string).
  { rewrite active_regime_auto.
    now float_true (float_lt (1 * 6e5 * 1 / 1) 1e6). }
  destruct (estimate_wall_distance_positive 6e5 1 1 1 1 "auto" 1e6)
    as (res & Hrun & HRe & Hreg & _); try lra.
  - right; right; reflexivity.
  - rewrite Hlam; discriminate.
  - exists res; split; [exact Hrun |]; split.
    + rewrite HRe; lra.
    + now rewrite Hreg.
Qed.

(** C3.  For every length and every [Re > 0] the boundary-layer height is
    [4.91 L / sqrt Re] below 5e5 and [0.16 L / Re^(1/7)] from 5e5 on, where
    [Re^(1/7)] is what [Re ** (1/7)] evaluates to.  The cutoff is the
    constant 5e5 whatever threshold the wall-distance estimator was given:
    with the threshold 1e6 and [Re = 6e5] the regime recorded is laminar
    while the height follows the turbulent correlation. *)
Theorem boundary_layer_height_correct (length Re0 : R) :
  0 < Re0 ->
  (Re0 < 5e5 ->
   calculate_boundary_layer_height length Re0
   = Ok (4.91 * length / sqrt Re0)) /\
  (5e5 <= Re0 ->
   calculate_boundary_layer_height length Re0
   = Ok (0.16 * length / Rpower Re0 (1 / 7)) /\
   float_pow Re0 (1 / 7) = Ok (PyFloat (Rpower Re0 (1 / 7)))) /\
  (exists res : WallDistanceResult,
      estimate_wall_distance 6e5 1 1 1 1 "auto" 1e6 = Ok res /\
      regime res = "laminar"%string /\
      calculate_boundary_layer_height length (Re res)
      = Ok (0.16 * length / Rpower (Re res) (1 / 7))).
Proof.
  intros Hpos; repeat split.
  - now apply calculate_boundary_layer_height_laminar.
  - now apply calculate_boundary_layer_height_turbulent.
  - now apply float_pow_positive_base.
  - destruct estimate_wall_distance_threshold_1e6 as (res & Hrun & HRe & Hreg).
    exists res; repeat split; trivial.
    apply calculate_boundary_layer_height_turbulent; lra.
Qed.

Lemma boundary_layer_height_correct_witness :
  0 < 4 /\
  calculate_boundary_layer_height 1 4 = Ok (4.91 * 1 / sqrt 4).
Proof.
  split; [lra |].
  apply (proj1 (boundary_layer_height_correct 1 4 ltac:(lra))); lra.
Defined.

(** ** Number of prism layers *)

Section PrismLayers.

Variables T h0 r : R.
Hypothesis T_pos : 0 < T.
Hypothesis h0_pos : 0 < h0.
Hypothesis r_gt_1 : 1 < r.

Lemma series_argument_gt_1 : 1 < series_argument T h0 r.
Proof.
  unfold series_argument.
  assert (0 < T * (r - 1) / h0) by (apply Rdiv_lt_0_compat; nra).
  lra.
Qed.

Lemma layer_quotient_pos : 0 < ln (series_argument T h0 r) / ln r.
Proof.
  apply Rdiv_lt_0_compat; apply ln_gt_1_pos;
    [exact series_argument_gt_1 | exact r_gt_1].
Qed.

Lemma calculate_prism_layer_cells_valid :
  calculate_prism_layer_cells T h0 r
  = Ok (Zceil (ln (series_argument T h0 r) / ln r)).
Proof.
  unfold calculate_prism_layer_cells.
  float_false (float_le T 0).
  float_false (float_le h0 0).
  float_false (float_le r 1).
  cbn [orb].
  rewrite float_div_ok by lra; cbn [bind].
  pose proof series_argument_gt_1 as Hx; fold (series_argument T h0 r).
  rewrite math_log_ok by lra; cbn [bind].
  rewrite math_log_ok by lra; cbn [bind].
  pose proof (ln_gt_1_pos r r_gt_1).
  rewrite float_div_ok by lra; reflexivity.
Qed.

Lemma prism_layer_count_ge_1 : (1 <= Zceil (ln (series_argument T h0 r) / ln r))%Z.
Proof.
  pose proof layer_quotient_pos.
  pose proof (Zceil_bound (ln (series_argument T h0 r) / ln r)) as [_ Hhi].
  assert (Hlt : IZR 0 < IZR (Zceil (ln (series_argument T h0 r) / ln r))) by lra.
  apply lt_IZR in Hlt; lia.
Qed.

End PrismLayers.

Lemma calculate_prism_layer_cells_invalid (T h0 r : R) :
  T <= 0 \/ h0 <= 0 \/ r <= 1 ->
  calculate_prism_layer_cells T h0 r = Raise invalid_prism_input.
Proof.
  intros H; unfold calculate_prism_layer_cells.
  assert (Hg : float_le T 0 || float_le h0 0 || float_le r 1 = true).
  { rewrite !orb_true_iff, !float_le_spec; tauto. }
  now rewrite Hg.
Qed.

Lemma log2_4 : ln 4 / ln 2 = 2.
Proof.
  assert (0 < ln 2) by (apply ln_gt_1_pos; lra).
  replace 4 with (2 ^ 2) by lra.
  rewrite ln_pow by lra; simpl INR; field; lra.
Qed.

(** Three units of thickness from a first cell of one unit, doubling each
    layer: two layers, [1 + 2]. *)
Lemma calculate_prism_layer_cells_3_1_2 :
  calculate_prism_layer_cells 3 1 2 = Ok 2%Z.
Proof.
  rewrite calculate_prism_layer_cells_valid by lra.
  unfold series_argument.
  replace (3 * (2 - 1) / 1 + 1) with 4 by lra.
  rewrite log2_4.
  f_equal; apply Zceil_eq; lra.
Qed.

(** The example of the spec: a growth rate of exactly 1 is refused. *)
Lemma calculate_prism_layer_cells_rate_1 :
  calculate_prism_layer_cells 1 0.001 1.0 = Raise invalid_prism_input.
Proof. apply calculate_prism_layer_cells_invalid; lra. Qed.

(** ** The whole pipeline *)

(** C8.  Whichever stage fails first, the orchestrator fails with that very
    exception and builds no result; when the three stages succeed it returns
    the record of their outputs, the Reynolds number and the wall distance of
    the first stage being the inputs of the second and the third. *)
Theorem calculate_all_parameters_propagates
    (length free_stream_velocity density dynamic_viscosity
     y_plus_target growth_rate : R) :
  match estimate_wall_distance free_stream_velocity density dynamic_viscosity
          length y_plus_target "auto" 5.0e5 with
  | Raise e =>
      calculate_all_parameters length free_stream_velocity density
        dynamic_viscosity y_plus_target growth_rate = Raise e
  | Ok res =>
      match calculate_boundary_layer_height length (Re res) with
      | Raise e =>
          calculate_all_parameters length free_stream_velocity density
            dynamic_viscosity y_plus_target growth_rate = Raise e
      | Ok total_thickness =>
          match calculate_prism_layer_cells total_thickness (y res)
                  growth_rate with
          | Raise e =>
              calculate_all_parameters length free_stream_velocity density
                dynamic_viscosity y_plus_target growth_rate = Raise e
          | Ok n =>
              calculate_all_parameters length free_stream_velocity density
                dynamic_viscosity y_plus_target growth_rate
              = Ok {| wall_distance := y res;
                      total_boundary_layer_thickness := total_thickness;
                      number_of_prism_layers := n;
                      estimation_details := res |}
          end
      end
  end.
Proof.
  unfold calculate_all_parameters, default_transition_Re.
  destruct (estimate_wall_distance _ _ _ _ _ _ _) as [res | e]; cbn [bind];
    [| reflexivity].
  destruct (calculate_boundary_layer_height _ _) as [total | e]; cbn [bind];
    [| reflexivity].
  destruct (calculate_prism_layer_cells _ _ _) as [n | e]; reflexivity.
Qed.

(** A successful run of the orchestrator, taken apart. *)
Lemma calculate_all_parameters_stages
    (length u_inf rho mu y_plus growth_rate : R) (m : MeshingResult) :
  calculate_all_parameters length u_inf rho mu y_plus growth_rate = Ok m ->
  estimate_wall_distance u_inf rho mu length y_plus "auto" 5.0e5
  = Ok (estimation_details m) /\
  calculate_boundary_layer_height length (Re (estimation_details m))
  = Ok (total_boundary_layer_thickness m) /\
  calculate_prism_layer_cells (total_boundary_layer_thickness m)
    (y (estimation_details m)) growth_rate
  = Ok (number_of_prism_layers m) /\
  wall_distance m = y (estimation_details m).
Proof.
  unfold calculate_all_parameters, default_transition_Re.
  destruct (estimate_wall_distance _ _ _ _ _ _ _) as [res | e]; cbn [bind];
    [| discriminate].
  destruct (calculate_boundary_layer_height _ _) as [total | e] eqn:Hh;
    cbn [bind]; [| discriminate].
  destruct (calculate_prism_layer_cells _ _ _) as [n | e] eqn:Hn;
    cbn [bind]; [| discriminate].
  intros H; injection H as <-; cbn; auto.
Qed.

(** From [Re = 10] on the base of the Schlichting power is positive. *)
Lemma schlichting_base_positive_from_10 (Re0 : R) :
  10 <= Re0 -> 0 < schlichting_base Re0.
Proof.
  intros H; unfold schlichting_base.
  pose proof ln_10_pos as H10.
  assert (Hln : ln 10 <= ln Re0).
  { destruct H as [H | <-]; [left; apply ln_increasing; lra | right; reflexivity]. }
  assert (1 <= ln Re0 / ln 10); [| lra].
  replace 1 with (ln 10 / ln 10) by (field; lra).
  unfold Rdiv; apply Rmult_le_compat_r;
    [left; apply Rinv_0_lt_compat; lra | exact Hln].
Qed.

(** The orchestrator is total on physically valid inputs below the range
    limit of the turbulent correlation: the automatic choice of regime never
    sends a small Reynolds number to the Schlichting formula. *)
Lemma calculate_all_parameters_succeeds
    (length u_inf rho mu y_plus growth_rate : R) :
  0 < length -> 0 < u_inf -> 0 < rho -> 0 < mu -> 0 < y_plus ->
  rho * u_inf * length / mu < 1e9 -> 1 < growth_rate ->
  exists m : MeshingResult,
    calculate_all_parameters length u_inf rho mu y_plus growth_rate = Ok m /\
    Re (estimation_details m) = rho * u_inf * length / mu /\
    0 < wall_distance m /\
    0 < total_boundary_layer_thickness m /\
    (1 <= number_of_prism_layers m)%Z.
Proof.
  intros HL Hu Hrho Hmu Hy Hhi Hg.
  pose proof (positive_Reynolds u_inf rho mu length Hu Hrho Hmu HL) as HRe.
  destruct (estimate_wall_distance_positive u_inf rho mu length y_plus
              "auto" 5.0e5) as (res & Hrun & HResRe & Hreg & Hyres); trivial.
  { right; right; reflexivity. }
  { intros Hturb; split; [exact Hhi |].
    apply schlichting_base_positive_from_10.
    rewrite active_regime_auto in Hturb.
    destruct (float_lt _ _) eqn:Hlt; [discriminate |].
    apply float_lt_false in Hlt; lra. }
  assert (Hh : exists total,
             calculate_boundary_layer_height length (Re res) = Ok total /\
             0 < total).
  { rewrite HResRe.
    destruct (Rlt_dec (rho * u_inf * length / mu) 5e5) as [Hlt | Hge].
    - eexists; split;
        [apply calculate_boundary_layer_height_laminar; lra |].
      apply Rdiv_lt_0_compat; [lra | now apply sqrt_lt_R0].
    - eexists; split;
        [apply calculate_boundary_layer_height_turbulent; lra |].
      apply Rdiv_lt_0_compat; [lra | apply exp_pos]. }
  destruct Hh as (total & Hh & Htotal).
  pose proof (calculate_prism_layer_cells_valid total (y res) growth_rate
                Htotal Hyres Hg) as Hn.
  pose proof (prism_layer_count_ge_1 total (y res) growth_rate
                Htotal Hyres Hg) as Hn1.
  unfold calculate_all_parameters, default_transition_Re.
  rewrite Hrun; cbn [bind]; rewrite Hh; cbn [bind]; rewrite Hn; cbn [bind].
  eexists; split; [reflexivity |]; cbn; auto.
Qed.

(** C10.  In every result of the orchestrator the recorded regime is
    laminar exactly when [Re < 5e5], which is exactly when the thickness
    was computed by the laminar correlation; otherwise the regime is
    turbulent and the thickness follows the seventh-power law. *)
Theorem orchestrator_regime_matches_correlation
    (length u_inf rho mu y_plus growth_rate : R) (m : MeshingResult) :
  calculate_all_parameters length u_inf rho mu y_plus growth_rate = Ok m ->
  (regime (estimation_details m) = "laminar"%string <->
   Re (estimation_details m) < 5e5) /\
  (regime (estimation_details m) = "laminar"%string ->
   total_boundary_layer_thickness m
   = 4.91 * length / sqrt (Re (estimation_details m))) /\
  (regime (estimation_details m) <> "laminar"%string ->
   regime (estimation_details m) = "turbulent"%string /\
   total_boundary_layer_thickness m
   = 0.16 * length / Rpower (Re (estimation_details m)) (1 / 7)).
Proof.
  intros Hm.
  destruct (calculate_all_parameters_stages _ _ _ _ _ _ _ Hm)
    as (Hrun & Hh & _ & _).
  destruct (estimate_wall_distance_records _ _ _ _ _ _ _ _ Hrun) as [_ Hreg].
  set (res := estimation_details m) in *.
  assert (HRe : 0 < Re res).
  { destruct (Rle_dec (Re res) 0) as [Hle |]; [| lra].
    rewrite calculate_boundary_layer_height_nonpositive in Hh by exact Hle.
    discriminate. }
  rewrite active_regime_auto in Hreg.
  destruct (float_lt (Re res) 5.0e5) eqn:Hlt.
  - apply float_lt_spec in Hlt.
    rewrite calculate_boundary_layer_height_laminar in Hh by lra.
    injection Hh as Hh.
    rewrite Hreg; split; [| split].
    + split; intros; [lra | reflexivity].
    + intros; now rewrite Hh.
    + intros Hne; exfalso; now apply Hne.
  - apply float_lt_false in Hlt.
    rewrite calculate_boundary_layer_height_turbulent in Hh by lra.
    injection Hh as Hh.
    rewrite Hreg; split; [| split].
    + split; [discriminate | intros ?; exfalso; lra].
    + discriminate.
    + intros; split; [reflexivity | now rewrite Hh].
Qed.

(** The orchestrator at [L = 1], [U = 100], [rho = mu = 1], [y+ = 1] and a
    growth rate of 2: [Re = 100] and the regime is laminar. *)
Lemma orchestrator_regime_matches_correlation_witness :
  exists m : MeshingResult,
    calculate_all_parameters 1 100 1 1 1 2 = Ok m /\
    Re (estimation_details m) < 5e5 /\
    regime (estimation_details m) = "laminar"%string /\
    total_boundary_layer_thickness m
    = 4.91 * 1 / sqrt (Re (estimation_details m)).
Proof.
  destruct (calculate_all_parameters_succeeds 1 100 1 1 1 2)
    as (m & Hm & HRe & _); try lra.
  exists m; split; [exact Hm |].
  destruct (orchestrator_regime_matches_correlation 1 100 1 1 1 2 m Hm)
    as (Hiff & Hlam & _).
  assert (Hlt : Re (estimation_details m) < 5e5) by (rewrite HRe; lra).
  split; [exact Hlt |].
  split; [apply Hiff; exact Hlt | apply Hlam, Hiff; exact Hlt].
Defined.

(** * Further properties of the functions *)

(** ** Wall distance: what is refused and what a result holds *)

Lemma regime_check_spec (rg : string) :
  (String.eqb rg "laminar" || String.eqb rg "turbulent"
   || String.eqb rg "auto") = true <-> valid_regime rg.
Proof.
  unfold valid_regime; rewrite !orb_true_iff, !String.eqb_eq; tauto.
Qed.

Lemma estimate_wall_distance_zero_viscosity
    (u_inf rho L y_plus : R) (rg : string) (t : R) :
  estimate_wall_distance u_inf rho 0 L y_plus rg t = Raise ZeroDivisionError.
Proof.
  unfold estimate_wall_distance; now rewrite float_div_by_zero.
Qed.

Lemma estimate_wall_distance_unknown_regime
    (u_inf rho mu L y_plus : R) (rg : string) (t : R) :
  mu <> 0 -> ~ valid_regime rg ->
  estimate_wall_distance u_inf rho mu L y_plus rg t = Raise invalid_regime.
Proof.
  intros Hmu Hrg; unfold estimate_wall_distance.
  rewrite float_div_ok by exact Hmu; cbn [bind].
  destruct (String.eqb rg "laminar" || String.eqb rg "turbulent"
            || String.eqb rg "auto") eqn:Hc; [| reflexivity].
  apply regime_check_spec in Hc; contradiction.
Qed.

(** X6.  A regime string other than the three accepted ones is refused with
    the ValueError naming them, whatever the other arguments, provided the
    viscosity is not zero; with a zero viscosity the division that computes
    [Re] comes first and every call raises [ZeroDivisionError]. *)
Theorem wall_distance_refusals
    (u_inf rho mu L y_plus : R) (rg : string) (t : R) :
  (mu <> 0 -> ~ valid_regime rg ->
   estimate_wall_distance u_inf rho mu L y_plus rg t
   = Raise (ValueError "regime must be 'laminar', 'turbulent', or 'auto'")) /\
  estimate_wall_distance u_inf rho 0 L y_plus rg t = Raise ZeroDivisionError /\
  (estimate_wall_distance u_inf rho mu L y_plus rg t = Raise invalid_regime ->
   mu <> 0 /\ ~ valid_regime rg).
Proof.
  split; [apply estimate_wall_distance_unknown_regime |].
  split; [apply estimate_wall_distance_zero_viscosity |].
  intros H.
  assert (Hmu : mu <> 0).
  { intros ->; rewrite estimate_wall_distance_zero_viscosity in H; discriminate. }
  split; [exact Hmu |]; intros Hrg.
  rewrite estimate_wall_distance_stages in H by trivial.
  revert H; unfold skin_friction, _cf_laminar, _cf_schlichting, float_pow,
    math_log10, math_sqrt, float_div, py_truediv, float_div, invalid_regime,
    Re_must_be_positive, Re_out_of_range, math_domain_error.
  repeat match goal with
         | |- context [if ?c then _ else _] => destruct c; cbn [bind py_mul]
         end; try discriminate.
Qed.

Lemma wall_distance_refusals_witness :
  1 <> 0 /\ ~ valid_regime "Laminar" /\
  estimate_wall_distance 1 1 1 1 1 "Laminar" 5e5
  = Raise (ValueError "regime must be 'laminar', 'turbulent', or 'auto'").
Proof.
  assert (Hrg : ~ valid_regime "Laminar")
    by (intros [H | [H | H]]; discriminate H).
  split; [lra |]; split; [exact Hrg |].
  apply (proj1 (wall_distance_refusals 1 1 1 1 1 "Laminar" 5e5));
    [lra | exact Hrg].
Defined.

(** A successful call, taken apart. *)
Lemma estimate_wall_distance_success_inv
    (u_inf rho mu L y_plus : R) (rg : string) (t : R)
    (res : WallDistanceResult) :
  estimate_wall_distance u_inf rho mu L y_plus rg t = Ok res ->
  mu <> 0 /\ rho <> 0 /\ valid_regime rg /\
  exists c : R,
    skin_friction (active_regime rg (rho * u_inf * L / mu) t)
                  (rho * u_inf * L / mu) = Ok (PyFloat c) /\
    0 <= c * 0.5 * rho * u_inf ^ 2 / rho /\
    rho * sqrt (c * 0.5 * rho * u_inf ^ 2 / rho) <> 0 /\
    res = {| Re := rho * u_inf * L / mu;
             Cf := PyFloat c;
             tau_w := PyFloat (c * 0.5 * rho * u_inf ^ 2);
             u_tau := sqrt (c * 0.5 * rho * u_inf ^ 2 / rho);
             y := y_plus * mu / (rho * sqrt (c * 0.5 * rho * u_inf ^ 2 / rho));
             regime := active_regime rg (rho * u_inf * L / mu) t |}.
Proof.
  intros H.
  assert (Hmu : mu <> 0).
  { intros ->; rewrite estimate_wall_distance_zero_viscosity in H; discriminate. }
  assert (Hrg : valid_regime rg).
  { destruct (String.eqb rg "laminar" || String.eqb rg "turbulent"
              || String.eqb rg "auto") eqn:Hc.
    - now apply regime_check_spec.
    - exfalso. rewrite estimate_wall_distance_unknown_regime in H;
        [discriminate | exact Hmu |].
      intros Hv; apply regime_check_spec in Hv; congruence. }
  rewrite estimate_wall_distance_stages in H by trivial.
  destruct (skin_friction _ _) as [[c | re im] | e]; cbn [bind] in H;
    [| | discriminate].
  - cbn [py_mul py_truediv] in H. unfold float_div in H.
    destruct (Req_dec_T rho 0) as [| Hrho]; [discriminate |].
    cbn [bind math_sqrt] in H.
    destruct (Rlt_dec (c * 0.5 * rho * u_inf ^ 2 / rho) 0) as [| Hq];
      [discriminate |].
    cbn [bind] in H.
    destruct (Req_dec_T (rho * sqrt (c * 0.5 * rho * u_inf ^ 2 / rho)) 0)
      as [| Hd]; [discriminate |].
    injection H as <-.
    repeat split; trivial.
    exists c; repeat split; trivial; lra.
  - exfalso. cbn [py_mul py_truediv] in H.
    destruct (Req_dec_T rho 0); discriminate.
Qed.

(** The friction velocity of a result is positive. *)
Lemma shear_velocity_pos (u_inf rho mu L c : R) :
  mu <> 0 -> rho <> 0 -> 0 < rho * u_inf * L / mu -> 0 < c ->
  0 < c * 0.5 * rho * u_inf ^ 2 / rho.
Proof.
  intros Hmu Hrho HRe Hc.
  assert (Hu : u_inf <> 0).
  { intros ->. replace (rho * 0 * L / mu) with 0 in HRe by (field; exact Hmu).
    lra. }
  replace (c * 0.5 * rho * u_inf ^ 2 / rho) with (c * 0.5 * u_inf ^ 2)
    by (field; exact Hrho).
  assert (0 < u_inf ^ 2) by (simpl; nra).
  nra.
Qed.

(** The converse of [estimate_wall_distance_success_inv]. *)
Lemma estimate_wall_distance_run
    (u_inf rho mu L y_plus : R) (rg : string) (t c : R) :
  mu <> 0 -> rho <> 0 -> valid_regime rg ->
  skin_friction (active_regime rg (rho * u_inf * L / mu) t)
                (rho * u_inf * L / mu) = Ok (PyFloat c) ->
  0 <= c * 0.5 * rho * u_inf ^ 2 / rho ->
  rho * sqrt (c * 0.5 * rho * u_inf ^ 2 / rho) <> 0 ->
  estimate_wall_distance u_inf rho mu L y_plus rg t
  = Ok {| Re := rho * u_inf * L / mu;
          Cf := PyFloat c;
          tau_w := PyFloat (c * 0.5 * rho * u_inf ^ 2);
          u_tau := sqrt (c * 0.5 * rho * u_inf ^ 2 / rho);
          y := y_plus * mu / (rho * sqrt (c * 0.5 * rho * u_inf ^ 2 / rho));
          regime := active_regime rg (rho * u_inf * L / mu) t |}.
Proof.
  intros Hmu Hrho Hrg Hsf Hq Hd.
  rewrite estimate_wall_distance_stages by trivial.
  rewrite Hsf; cbn [bind py_mul py_truediv].
  rewrite float_div_ok by exact Hrho; cbn [bind].
  rewrite math_sqrt_ok by exact Hq; cbn [bind].
  now rewrite float_div_ok by exact Hd.
Qed.

(** ** Boundary-layer thickness: length and the cutoff *)

(** The thickness at unit length: a positive number for every [Re > 0]. *)
Lemma unit_thickness_pos (Re0 : R) :
  0 < Re0 ->
  exists d : R, calculate_boundary_layer_height 1 Re0 = Ok d /\ 0 < d /\
    forall length : R,
      calculate_boundary_layer_height length Re0 = Ok (length * d).
Proof.
  intros HRe.
  destruct (Rlt_dec Re0 5e5) as [Hlt | Hge].
  - pose proof (sqrt_lt_R0 Re0 HRe) as Hs.
    exists (4.91 / sqrt Re0); split; [| split].
    + rewrite calculate_boundary_layer_height_laminar by lra.
      f_equal; field; lra.
    + apply Rdiv_lt_0_compat; lra.
    + intros length.
      rewrite calculate_boundary_layer_height_laminar by lra.
      f_equal; field; lra.
  - assert (Hp : 0 < Rpower Re0 (1 / 7)) by apply exp_pos.
    exists (0.16 / Rpower Re0 (1 / 7)); split; [| split].
    + rewrite calculate_boundary_layer_height_turbulent by lra.
      f_equal; field; lra.
    + apply Rdiv_lt_0_compat; lra.
    + intros length.
      rewrite calculate_boundary_layer_height_turbulent by lra.
      f_equal; field; lra.
Qed.

Lemma sqrt_250000 : sqrt 250000 = 500.
Proof.
  replace 250000 with (500 * 500) by lra.
  apply sqrt_square; lra.
Qed.

Lemma seventh_root_823543 : Rpower 823543 (1 / 7) = 7.
Proof.
  replace 823543 with (Rpower 7 (INR 7)).
  - rewrite Rpower_mult.
    replace (INR 7 * (1 / 7)) with 1 by (simpl; field).
    apply Rpower_1; lra.
  - rewrite Rpower_pow by lra; simpl; lra.
Qed.

Lemma laminar_thickness_decreasing (length Re1 Re2 : R) :
  0 < length -> 0 < Re1 -> Re1 < Re2 ->
  4.91 * length / sqrt Re2 < 4.91 * length / sqrt Re1.
Proof.
  intros HL H1 H12.
  pose proof (sqrt_lt_R0 Re1 H1) as Hs1.
  assert (Hs : sqrt Re1 < sqrt Re2) by (apply sqrt_lt_1; lra).
  unfold Rdiv; apply Rmult_lt_compat_l; [nra |].
  apply Rinv_lt_contravar; [nra | exact Hs].
Qed.

(** Across the cutoff the thickness more than doubles. *)
Lemma thickness_jump_at_cutoff (length Re1 Re2 : R) :
  0 < length -> 250000 <= Re1 -> 5e5 <= Re2 -> Re2 < 823543 ->
  2 * (4.91 * length / sqrt Re1) < 0.16 * length / Rpower Re2 (1 / 7).
Proof.
  intros HL H1 H2 H3.
  assert (Hs : 500 <= sqrt Re1).
  { rewrite <- sqrt_250000; apply sqrt_le_1; lra. }
  assert (Hp0 : 0 < Rpower Re2 (1 / 7)) by apply exp_pos.
  assert (Hp : Rpower Re2 (1 / 7) < 7).
  { pose proof (Rlt_Rpower_l Re2 823543 (1 / 7)) as Hlt.
    rewrite seventh_root_823543 in Hlt; apply Hlt; lra. }
  assert (Hlo : 4.91 * length / sqrt Re1 <= 4.91 * length / 500).
  { unfold Rdiv; apply Rmult_le_compat_l; [nra |].
    apply Rinv_le_contravar; lra. }
  assert (Hhi : 0.16 * length / 7 < 0.16 * length / Rpower Re2 (1 / 7)).
  { unfold Rdiv; apply Rmult_lt_compat_l; [nra |].
    apply Rinv_lt_contravar; [nra | exact Hp]. }
  lra.
Qed.

(** ** The pipeline: what it never raises *)

Lemma calculate_prism_layer_cells_success_inv (T h0 r : R) (n : Z) :
  calculate_prism_layer_cells T h0 r = Ok n -> 0 < T /\ 0 < h0 /\ 1 < r.
Proof.
  intros H.
  destruct (Rle_dec T 0) as [HT |];
    [rewrite calculate_prism_layer_cells_invalid in H by tauto; discriminate |].
  destruct (Rle_dec h0 0) as [Hh |];
    [rewrite calculate_prism_layer_cells_invalid in H by tauto; discriminate |].
  destruct (Rle_dec r 1) as [Hr |];
    [rewrite calculate_prism_layer_cells_invalid in H by tauto; discriminate |].
  lra.
Qed.

Lemma nonzero_density_of_Reynolds (u_inf rho mu L : R) :
  mu <> 0 -> 0 < rho * u_inf * L / mu -> rho <> 0.
Proof.
  intros Hmu HRe ->.
  replace (0 * u_inf * L / mu) with 0 in HRe by (field; exact Hmu); lra.
Qed.

(** The first stage as the orchestrator calls it, for a non-zero viscosity,
    by the value of [Re]. *)
Lemma estimate_wall_distance_auto_nonpositive
    (u_inf rho mu L y_plus : R) :
  mu <> 0 -> rho * u_inf * L / mu <= 0 ->
  estimate_wall_distance u_inf rho mu L y_plus "auto" 5.0e5
  = Raise Re_must_be_positive.
Proof.
  intros Hmu HRe.
  rewrite estimate_wall_distance_stages;
    [| exact Hmu | right; right; reflexivity].
  rewrite active_regime_auto.
  float_true (float_lt (rho * u_inf * L / mu) 5.0e5).
  unfold skin_friction; simpl String.eqb; cbv iota.
  now rewrite _cf_laminar_nonpositive_Re.
Qed.

Lemma estimate_wall_distance_auto_out_of_range
    (u_inf rho mu L y_plus : R) :
  mu <> 0 -> 1e9 <= rho * u_inf * L / mu ->
  estimate_wall_distance u_inf rho mu L y_plus "auto" 5.0e5
  = Raise Re_out_of_range.
Proof.
  intros Hmu HRe.
  rewrite estimate_wall_distance_stages;
    [| exact Hmu | right; right; reflexivity].
  rewrite active_regime_auto.
  float_false (float_lt (rho * u_inf * L / mu) 5.0e5).
  unfold skin_friction; simpl String.eqb; cbv iota.
  now rewrite _cf_schlichting_large_Re.
Qed.

Lemma estimate_wall_distance_auto_in_range
    (u_inf rho mu L y_plus : R) :
  mu <> 0 -> 0 < rho * u_inf * L / mu -> rho * u_inf * L / mu < 1e9 ->
  exists res : WallDistanceResult,
    estimate_wall_distance u_inf rho mu L y_plus "auto" 5.0e5 = Ok res /\
    Re res = rho * u_inf * L / mu /\
    0 < u_tau res /\
    y res = y_plus * mu / (rho * u_tau res).
Proof.
  intros Hmu Hlo Hhi.
  pose proof (nonzero_density_of_Reynolds _ _ _ _ Hmu Hlo) as Hrho.
  assert (Hsf : exists c,
             skin_friction (active_regime "auto" (rho * u_inf * L / mu) 5.0e5)
                           (rho * u_inf * L / mu) = Ok (PyFloat c) /\ 0 < c).
  { rewrite active_regime_auto.
    destruct (float_lt (rho * u_inf * L / mu) 5.0e5) eqn:Hlt;
      unfold skin_friction; simpl String.eqb; cbv iota.
    - rewrite _cf_laminar_positive_Re by exact Hlo; cbn [bind].
      eexists; split; [reflexivity |].
      apply Rdiv_lt_0_compat; [lra | now apply sqrt_lt_R0].
    - apply float_lt_false in Hlt.
      rewrite _cf_schlichting_positive_base;
        [| lra | apply schlichting_base_positive_from_10; lra].
      eexists; split; [reflexivity | apply exp_pos]. }
  destruct Hsf as (c & Hsf & Hc).
  pose proof (shear_velocity_pos u_inf rho mu L c Hmu Hrho Hlo Hc) as Hq.
  pose proof (sqrt_lt_R0 _ Hq) as Hs.
  eexists; split.
  - apply estimate_wall_distance_run with (c := c); trivial.
    + right; right; reflexivity.
    + lra.
    + intros Hz; apply Rmult_integral in Hz; destruct Hz; [contradiction | lra].
  - cbn; auto.
Qed.

(** The three stages in range: what decides between a result and the
    refusal of the layer count. *)
Lemma calculate_all_parameters_in_range
    (length u_inf rho mu y_plus growth_rate : R) :
  mu <> 0 -> 0 < rho * u_inf * length / mu ->
  rho * u_inf * length / mu < 1e9 ->
  exists res : WallDistanceResult,
    estimate_wall_distance u_inf rho mu length y_plus "auto" 5.0e5 = Ok res /\
    0 < u_tau res /\ y res = y_plus * mu / (rho * u_tau res) /\
    (length <= 0 \/ y res <= 0 \/ growth_rate <= 1 ->
     calculate_all_parameters length u_inf rho mu y_plus growth_rate
     = Raise invalid_prism_input) /\
    (0 < length -> 0 < y res -> 1 < growth_rate ->
     exists m : MeshingResult,
       calculate_all_parameters length u_inf rho mu y_plus growth_rate = Ok m /\
       estimation_details m = res /\ wall_distance m = y res /\
       0 < total_boundary_layer_thickness m /\
       (1 <= number_of_prism_layers m)%Z).
Proof.
  intros Hmu Hlo Hhi.
  destruct (estimate_wall_distance_auto_in_range u_inf rho mu length y_plus
              Hmu Hlo Hhi) as (res & Hrun & HRe & Hut & Hy).
  destruct (unit_thickness_pos (Re res)) as (d & _ & Hd & Hall);
    [rewrite HRe; exact Hlo |].
  exists res; split; [exact Hrun |]; split; [exact Hut |];
    split; [exact Hy |].
  unfold calculate_all_parameters, default_transition_Re.
  rewrite Hrun; cbn [bind]; rewrite Hall; cbn [bind].
  split.
  - intros Hbad.
    rewrite calculate_prism_layer_cells_invalid; [reflexivity |].
    destruct Hbad as [H | [H | H]]; [left; nra | tauto | tauto].
  - intros HL Hypos Hg.
    assert (Ht : 0 < length * d) by nra.
    rewrite (calculate_prism_layer_cells_valid _ _ _ Ht Hypos Hg); cbn [bind].
    eexists; split; [reflexivity |]; cbn.
    repeat split; trivial.
    now apply prism_layer_count_ge_1.
Qed.

(** X15.  The orchestrator never raises the boundary-layer stage's
    "Reynolds number must be positive" (a Reynolds number that stage would
    refuse is refused by the first stage already, with "Re must be
    positive"), never a [TypeError] (the automatic regime sends no Reynolds
    number below 5e5 to the Schlichting power, so no coefficient is
    complex), never a math domain error and never the regime error; and
    with a zero viscosity it raises [ZeroDivisionError]. *)
Theorem orchestrator_never_raises
    (length u_inf rho mu y_plus growth_rate : R) :
  calculate_all_parameters length u_inf rho mu y_plus growth_rate
  <> Raise (ValueError "Reynolds number must be positive") /\
  calculate_all_parameters length u_inf rho mu y_plus growth_rate
  <> Raise TypeError /\
  calculate_all_parameters length u_inf rho mu y_plus growth_rate
  <> Raise (ValueError "math domain error") /\
  calculate_all_parameters length u_inf rho mu y_plus growth_rate
  <> Raise (ValueError "regime must be 'laminar', 'turbulent', or 'auto'") /\
  (mu = 0 ->
   calculate_all_parameters length u_inf rho mu y_plus growth_rate
   = Raise ZeroDivisionError).
Proof.
  assert (H0 : mu = 0 ->
               calculate_all_parameters length u_inf rho mu y_plus growth_rate
               = Raise ZeroDivisionError).
  { intros ->; unfold calculate_all_parameters.
    now rewrite estimate_wall_distance_zero_viscosity. }
  assert (Hcases :
            forall e : exn,
              calculate_all_parameters length u_inf rho mu y_plus growth_rate
              = Raise e ->
              e = ZeroDivisionError \/ e = Re_must_be_positive \/
              e = Re_out_of_range \/ e = invalid_prism_input).
  { intros e He.
    destruct (Req_dec_T mu 0) as [Hmu | Hmu].
    { rewrite (H0 Hmu) in He; injection He as <-; auto. }
    destruct (Rle_dec (rho * u_inf * length / mu) 0) as [HRe | HRe].
    { unfold calculate_all_parameters, default_transition_Re in He.
      rewrite estimate_wall_distance_auto_nonpositive in He by trivial.
      injection He as <-; auto. }
    destruct (Rle_dec 1e9 (rho * u_inf * length / mu)) as [HRe' | HRe'].
    { unfold calculate_all_parameters, default_transition_Re in He.
      rewrite estimate_wall_distance_auto_out_of_range in He by trivial.
      injection He as <-; auto. }
    destruct (calculate_all_parameters_in_range length u_inf rho mu y_plus
                growth_rate Hmu ltac:(lra) ltac:(lra))
      as (res & _ & _ & _ & Hbad & Hgood).
    destruct (Rle_dec length 0) as [| HL];
      [rewrite Hbad in He by tauto; injection He as <-; auto |].
    destruct (Rle_dec (y res) 0) as [| Hy];
      [rewrite Hbad in He by tauto; injection He as <-; auto |].
    destruct (Rle_dec growth_rate 1) as [| Hg];
      [rewrite Hbad in He by tauto; injection He as <-; auto |].
    destruct Hgood as (m & Hm & _); [lra | lra | lra |].
    rewrite Hm in He; discriminate. }
  repeat split; try exact H0; intros He; apply Hcases in He;
    destruct He as [He | [He | [He | He]]]; discriminate He.
Qed.

(** X16.  The growth rate reaches the layer count only: two runs of the
    orchestrator that differ in the growth rate alone and both return a
    result return the same wall distance, the same thickness and the same
    details. *)
Theorem orchestrator_growth_rate_frame
    (length u_inf rho mu y_plus g1 g2 : R) (m1 m2 : MeshingResult) :
  calculate_all_parameters length u_inf rho mu y_plus g1 = Ok m1 ->
  calculate_all_parameters length u_inf rho mu y_plus g2 = Ok m2 ->
  wall_distance m2 = wall_distance m1 /\
  total_boundary_layer_thickness m2 = total_boundary_layer_thickness m1 /\
  estimation_details m2 = estimation_details m1.
Proof.
  intros H1 H2.
  destruct (calculate_all_parameters_stages _ _ _ _ _ _ _ H1)
    as (Hrun1 & Hh1 & _ & Hw1).
  destruct (calculate_all_parameters_stages _ _ _ _ _ _ _ H2)
    as (Hrun2 & Hh2 & _ & Hw2).
  assert (Hd : estimation_details m2 = estimation_details m1) by congruence.
  rewrite Hd in Hh2, Hw2.
  repeat split; congruence.
Qed.

Lemma orchestrator_growth_rate_frame_witness :
  exists m1 m2 : MeshingResult,
    calculate_all_parameters 1 100 1 1 1 2 = Ok m1 /\
    calculate_all_parameters 1 100 1 1 1 3 = Ok m2 /\
    wall_distance m2 = wall_distance m1 /\
    total_boundary_layer_thickness m2 = total_boundary_layer_thickness m1.
Proof.
  destruct (calculate_all_parameters_succeeds 1 100 1 1 1 2)
    as (m1 & Hm1 & _); try lra.
  destruct (calculate_all_parameters_succeeds 1 100 1 1 1 3)
    as (m2 & Hm2 & _); try lra.
  destruct (orchestrator_growth_rate_frame 1 100 1 1 1 2 3 m1 m2 Hm1 Hm2)
    as (Hw & Ht & _).
  exists m1, m2; auto.
Defined.

(** ** Laminar skin friction and the Reynolds number *)

(** X5.  The laminar coefficient is never negative and never increases
    with [Re]: for [0 < Re1 <= Re2] the value at [Re2] is at most the value
    at [Re1]. *)
Theorem cf_laminar_nonincreasing (Re1 Re2 : R) :
  0 < Re1 -> Re1 <= Re2 ->
  exists c1 c2 : R,
    _cf_laminar Re1 = Ok c1 /\ _cf_laminar Re2 = Ok c2 /\
    0 <= c2 /\ c2 <= c1.
Proof.
  intros H1 H12.
  exists (1.328 / sqrt Re1), (1.328 / sqrt Re2).
  pose proof (sqrt_lt_R0 Re1 H1) as Hs1.
  assert (Hs : sqrt Re1 <= sqrt Re2) by (apply sqrt_le_1; lra).
  repeat split.
  - apply _cf_laminar_positive_Re; lra.
  - apply _cf_laminar_positive_Re; lra.
  - left; apply Rdiv_lt_0_compat; lra.
  - unfold Rdiv; apply Rmult_le_compat_l; [lra |].
    apply Rinv_le_contravar; [exact Hs1 | exact Hs].
Qed.

Lemma cf_laminar_nonincreasing_witness :
  0 < 4 /\ 4 <= 9 /\
  exists c1 c2 : R,
    _cf_laminar 4 = Ok c1 /\ _cf_laminar 9 = Ok c2 /\ 0 <= c2 /\ c2 <= c1.
Proof.
  split; [lra |]; split; [lra |].
  apply (cf_laminar_nonincreasing 4 9); lra.
Defined.

(** ** Wall distance: the contents of a result and the target y+ *)

(** X7.  A call that returns a result had a non-zero viscosity, a non-zero
    density and an accepted regime string.  The result records
    [Re = rho U L / mu] and the regime resolved from it, "laminar" or
    "turbulent"; its [Cf] is the real number (never a complex one) that the
    skin-friction function of that regime returned for that [Re]; and
    [tau_w], [u_tau] and [y] are the expressions of the source over it,
    with [rho * u_tau] not zero. *)
Theorem wall_distance_result_contents
    (u_inf rho mu L y_plus : R) (rg : string) (t : R)
    (res : WallDistanceResult) :
  estimate_wall_distance u_inf rho mu L y_plus rg t = Ok res ->
  mu <> 0 /\ rho <> 0 /\ valid_regime rg /\
  Re res = rho * u_inf * L / mu /\
  regime res = active_regime rg (Re res) t /\
  (regime res = "laminar"%string \/ regime res = "turbulent"%string) /\
  exists c : R,
    skin_friction (regime res) (Re res) = Ok (PyFloat c) /\
    Cf res = PyFloat c /\
    tau_w res = PyFloat (c * 0.5 * rho * u_inf ^ 2) /\
    u_tau res = sqrt (c * 0.5 * rho * u_inf ^ 2 / rho) /\
    rho * u_tau res <> 0 /\
    y res = y_plus * mu / (rho * u_tau res).
Proof.
  intros H.
  destruct (estimate_wall_distance_success_inv _ _ _ _ _ _ _ _ H)
    as (Hmu & Hrho & Hrg & c & Hsf & _ & Hd & ->); cbn.
  repeat split; trivial.
  - now apply active_regime_valid.
  - exists c; repeat split; trivial.
Qed.

Lemma wall_distance_result_contents_witness :
  exists res : WallDistanceResult,
    estimate_wall_distance 100 1 1 1 1 "laminar" 5e5 = Ok res /\
    Re res = 1 * 100 * 1 / 1 /\
    exists c : R, Cf res = PyFloat c.
Proof.
  destruct (estimate_wall_distance_positive 100 1 1 1 1 "laminar" 5e5)
    as (res & Hrun & _);
    [lra | lra | lra | lra | lra | left; reflexivity
    | intros Habs; discriminate Habs |].
  exists res; split; [exact Hrun |].
  destruct (wall_distance_result_contents _ _ _ _ _ _ _ _ Hrun)
    as (_ & _ & _ & HRe & _ & _ & c & _ & HCf & _).
  split; [exact HRe | exists c; exact HCf].
Defined.

(** X9.  The target y+ enters the last division only.  Changing it alone
    changes neither whether the call raises nor what it raises, and in a
    result it changes the field [y] alone, which is
    [y_plus * mu / (rho * u_tau)] over the same [u_tau]. *)
Theorem wall_distance_y_plus_frame
    (u_inf rho mu L y_plus y_plus' : R) (rg : string) (t : R) :
  match estimate_wall_distance u_inf rho mu L y_plus rg t with
  | Raise e =>
      estimate_wall_distance u_inf rho mu L y_plus' rg t = Raise e
  | Ok res =>
      estimate_wall_distance u_inf rho mu L y_plus' rg t
      = Ok {| Re := Re res; Cf := Cf res; tau_w := tau_w res;
              u_tau := u_tau res;
              y := y_plus' * mu / (rho * u_tau res);
              regime := regime res |}
  end.
Proof.
  destruct (Req_dec_T mu 0) as [-> | Hmu].
  { now rewrite !estimate_wall_distance_zero_viscosity. }
  destruct (String.eqb rg "laminar" || String.eqb rg "turbulent"
            || String.eqb rg "auto") eqn:Hc.
  - apply regime_check_spec in Hc.
    rewrite !estimate_wall_distance_stages by trivial.
    destruct (skin_friction _ _) as [cf | e]; cbn [bind]; [| reflexivity].
    destruct (py_truediv _ _) as [q | e]; cbn [bind]; [| reflexivity].
    destruct (math_sqrt q) as [ut | e]; cbn [bind]; [| reflexivity].
    unfold float_div.
    destruct (Req_dec_T (rho * ut) 0); reflexivity.
  - assert (Hrg : ~ valid_regime rg).
    { intros Hv; apply regime_check_spec in Hv; congruence. }
    now rewrite !estimate_wall_distance_unknown_regime.
Qed.

(** ** Boundary-layer thickness: any length is accepted *)



(** X11.  Below the cutoff 5e5 the thickness of a positive length never
    increases with [Re]; across the cutoff it jumps up: for a length between
    1e-100 and 1e100 (so that no product leaves the range of the doubles),
    from any [Re] in [250000, 5e5) to any [Re] in [5e5, 823543) the
    thickness more than doubles. *)
Theorem boundary_layer_height_across_cutoff (length Re1 Re2 d1 d2 : R) :
  0 < length -> 0 < Re1 -> Re1 <= Re2 ->
  calculate_boundary_layer_height length Re1 = Ok d1 ->
  calculate_boundary_layer_height length Re2 = Ok d2 ->
  (Re2 < 5e5 -> d2 <= d1) /\
  (1e-100 <= length -> length <= 1e100 ->
   250000 <= Re1 -> Re1 < 5e5 -> 5e5 <= Re2 -> Re2 < 823543 ->
   2 * d1 < d2).
Proof.
  intros HL H1 H12 Hd1 Hd2; split.
  - intros Hlam.
    rewrite calculate_boundary_layer_height_laminar in Hd1, Hd2 by lra.
    injection Hd1 as <-; injection Hd2 as <-.
    destruct H12 as [Hlt | ->]; [| lra].
    left; now apply laminar_thickness_decreasing.
  - intros _ _ Ha Hb Hc Hd.
    rewrite calculate_boundary_layer_height_laminar in Hd1 by lra.
    rewrite calculate_boundary_layer_height_turbulent in Hd2 by lra.
    injection Hd1 as <-; injection Hd2 as <-.
    now apply thickness_jump_at_cutoff.
Qed.

Lemma boundary_layer_height_across_cutoff_witness :
  0 < 1 /\ 0 < 250000 /\ 250000 <= 5e5 /\ 1e-100 <= 1 /\ 1 <= 1e100 /\
  exists d1 d2 : R,
    calculate_boundary_layer_height 1 250000 = Ok d1 /\
    calculate_boundary_layer_height 1 5e5 = Ok d2 /\
    2 * d1 < d2.
Proof.
  repeat (split; [lra |]).
  eexists; eexists; split; [| split].
  - apply calculate_boundary_layer_height_laminar; lra.
  - apply calculate_boundary_layer_height_turbulent; lra.
  - eapply (proj2 (boundary_layer_height_across_cutoff 1 250000 5e5 _ _
              ltac:(lra) ltac:(lra) ltac:(lra)
              (calculate_boundary_layer_height_laminar 1 250000
                 ltac:(lra) ltac:(lra))
              (calculate_boundary_layer_height_turbulent 1 5e5 ltac:(lra))));
      lra.
Defined.

(** ** Prism layers: where the rounding of the doubles shows *)


